(** * HTTPStatusCodes: the status-code constants, their literal types and
      the category unions of [HTTPStatusCodes.ts]

    The TypeScript module is a list of declarations of three shapes:

    - [export const NAME = n;]      a value-level constant,
    - [export type NAME = n;]       a literal type with the single value [n],
    - [export type T = | A | B ...;] a union of previously named types.

    The value level is embedded as one definition per constant plus the
    export table [const_decls]; the type level as the declaration list
    [type_decls], given a meaning by [inhabitants], which resolves the names
    of a union in the declaration list. *)

From Stdlib Require Import ZArith List String Bool Lia Sorted Permutation.
Import ListNotations.

Local Open Scope string_scope.
Local Open Scope Z_scope.

(** ** Value level: [export const NAME = n;], in source order *)

Definition CONTINUE : Z := 100.
Definition SWITCHING_PROTOCOLS : Z := 101.
Definition PROCESSING : Z := 102.
Definition EARLY_HINTS : Z := 103.
Definition OK : Z := 200.
Definition CREATED : Z := 201.
Definition ACCEPTED : Z := 202.
Definition NON_AUTHORITATIVE_INFORMATION : Z := 203.
Definition NO_CONTENT : Z := 204.
Definition RESET_CONTENT : Z := 205.
Definition PARTIAL_CONTENT : Z := 206.
Definition MULTI_STATUS : Z := 207.
Definition ALREADY_REPORTED : Z := 208.
Definition IM_USED : Z := 226.
Definition MULTIPLE_CHOICES : Z := 300.
Definition MOVED_PERMANENTLY : Z := 301.
Definition FOUND : Z := 302.
Definition SEE_OTHER : Z := 303.
Definition NOT_MODIFIED : Z := 304.
Definition USE_PROXY : Z := 305.
Definition SWITCH_PROXY : Z := 306.
Definition TEMPORARY_REDIRECT : Z := 307.
Definition PERMANENT_REDIRECT : Z := 308.
Definition BAD_REQUEST : Z := 400.
Definition UNAUTHORISED : Z := 401.
Definition PAYMENT_REQUIRED : Z := 402.
Definition FORBIDDEN : Z := 403.
Definition NOT_FOUND : Z := 404.
Definition METHOD_NOT_ALLOWED : Z := 405.
Definition NOT_ACCEPTABLE : Z := 406.
Definition PROXY_AUTHENTICATION_REQUIRED : Z := 407.
Definition REQUEST_TIMEOUT : Z := 408.
Definition CONFLICT : Z := 409.
Definition GONE : Z := 410.
Definition LENGTH_REQUIRED : Z := 411.
Definition PRECONDITION_FAILED : Z := 412.
Definition PAYLOAD_TOO_LARGE : Z := 413.
Definition URI_TOO_LONG : Z := 414.
Definition UNSUPPORTED_MEDIA_TYPE : Z := 415.
Definition RANGE_NOT_SATISFIABLE : Z := 416.
Definition EXPECTATION_FAILED : Z := 417.
Definition IM_A_TEAPOT : Z := 418.
Definition MISDIRECTED_REQUEST : Z := 421.
Definition UNPROCESSABLE_ENTRY : Z := 422.
Definition LOCKED : Z := 423.
Definition FAILED_DEPENDENCY : Z := 424.
Definition TOO_EARLY : Z := 425.
Definition UPGRADE_REQUIRED : Z := 426.
Definition PRECONDITION_REQUIRED : Z := 428.
Definition TOO_MANY_REQUESTS : Z := 429.
Definition REQUEST_HEADER_FIELDS_TOO_LARGE : Z := 431.
Definition UNAVAILABLE_FOR_LEGAL_REASONS : Z := 451.
Definition INTERNAL_SERVER_ERROR : Z := 500.
Definition NOT_IMPLEMENTED : Z := 501.
Definition BAD_GATEWAY : Z := 502.
Definition SERVICE_UNAVAILABLE : Z := 503.
Definition GATEWAY_TIMEOUT : Z := 504.
Definition HTTP_VERSION_NOT_SUPPORTED : Z := 505.
Definition VARIANT_ALSO_NEGOTIATES : Z := 506.
Definition INSUFFICIENT_STORAGE : Z := 507.
Definition LOOP_DETECTED : Z := 508.
Definition NOT_EXTENDED : Z := 510.
Definition NETWORK_AUTHENTICATION_REQUIRED : Z := 511.

(** The module's value exports as an association list, in declaration
    order.  An association list rather than a finite map: the order of the
    declarations and the absence of repeated names are properties to be
    proved, not built in. *)
Definition const_decls : list (string * Z) :=
  [ ("CONTINUE", CONTINUE)
  ; ("SWITCHING_PROTOCOLS", SWITCHING_PROTOCOLS)
  ; ("PROCESSING", PROCESSING)
  ; ("EARLY_HINTS", EARLY_HINTS)
  ; ("OK", OK)
  ; ("CREATED", CREATED)
  ; ("ACCEPTED", ACCEPTED)
  ; ("NON_AUTHORITATIVE_INFORMATION", NON_AUTHORITATIVE_INFORMATION)
  ; ("NO_CONTENT", NO_CONTENT)
  ; ("RESET_CONTENT", RESET_CONTENT)
  ; ("PARTIAL_CONTENT", PARTIAL_CONTENT)
  ; ("MULTI_STATUS", MULTI_STATUS)
  ; ("ALREADY_REPORTED", ALREADY_REPORTED)
  ; ("IM_USED", IM_USED)
  ; ("MULTIPLE_CHOICES", MULTIPLE_CHOICES)
  ; ("MOVED_PERMANENTLY", MOVED_PERMANENTLY)
  ; ("FOUND", FOUND)
  ; ("SEE_OTHER", SEE_OTHER)
  ; ("NOT_MODIFIED", NOT_MODIFIED)
  ; ("USE_PROXY", USE_PROXY)
  ; ("SWITCH_PROXY", SWITCH_PROXY)
  ; ("TEMPORARY_REDIRECT", TEMPORARY_REDIRECT)
  ; ("PERMANENT_REDIRECT", PERMANENT_REDIRECT)
  ; ("BAD_REQUEST", BAD_REQUEST)
  ; ("UNAUTHORISED", UNAUTHORISED)
  ; ("PAYMENT_REQUIRED", PAYMENT_REQUIRED)
  ; ("FORBIDDEN", FORBIDDEN)
  ; ("NOT_FOUND", NOT_FOUND)
  ; ("METHOD_NOT_ALLOWED", METHOD_NOT_ALLOWED)
  ; ("NOT_ACCEPTABLE", NOT_ACCEPTABLE)
  ; ("PROXY_AUTHENTICATION_REQUIRED", PROXY_AUTHENTICATION_REQUIRED)
  ; ("REQUEST_TIMEOUT", REQUEST_TIMEOUT)
  ; ("CONFLICT", CONFLICT)
  ; ("GONE", GONE)
  ; ("LENGTH_REQUIRED", LENGTH_REQUIRED)
  ; ("PRECONDITION_FAILED", PRECONDITION_FAILED)
  ; ("PAYLOAD_TOO_LARGE", PAYLOAD_TOO_LARGE)
  ; ("URI_TOO_LONG", URI_TOO_LONG)
  ; ("UNSUPPORTED_MEDIA_TYPE", UNSUPPORTED_MEDIA_TYPE)
  ; ("RANGE_NOT_SATISFIABLE", RANGE_NOT_SATISFIABLE)
  ; ("EXPECTATION_FAILED", EXPECTATION_FAILED)
  ; ("IM_A_TEAPOT", IM_A_TEAPOT)
  ; ("MISDIRECTED_REQUEST", MISDIRECTED_REQUEST)
  ; ("UNPROCESSABLE_ENTRY", UNPROCESSABLE_ENTRY)
  ; ("LOCKED", LOCKED)
  ; ("FAILED_DEPENDENCY", FAILED_DEPENDENCY)
  ; ("TOO_EARLY", TOO_EARLY)
  ; ("UPGRADE_REQUIRED", UPGRADE_REQUIRED)
  ; ("PRECONDITION_REQUIRED", PRECONDITION_REQUIRED)
  ; ("TOO_MANY_REQUESTS", TOO_MANY_REQUESTS)
  ; ("REQUEST_HEADER_FIELDS_TOO_LARGE", REQUEST_HEADER_FIELDS_TOO_LARGE)
  ; ("UNAVAILABLE_FOR_LEGAL_REASONS", UNAVAILABLE_FOR_LEGAL_REASONS)
  ; ("INTERNAL_SERVER_ERROR", INTERNAL_SERVER_ERROR)
  ; ("NOT_IMPLEMENTED", NOT_IMPLEMENTED)
  ; ("BAD_GATEWAY", BAD_GATEWAY)
  ; ("SERVICE_UNAVAILABLE", SERVICE_UNAVAILABLE)
  ; ("GATEWAY_TIMEOUT", GATEWAY_TIMEOUT)
  ; ("HTTP_VERSION_NOT_SUPPORTED", HTTP_VERSION_NOT_SUPPORTED)
  ; ("VARIANT_ALSO_NEGOTIATES", VARIANT_ALSO_NEGOTIATES)
  ; ("INSUFFICIENT_STORAGE", INSUFFICIENT_STORAGE)
  ; ("LOOP_DETECTED", LOOP_DETECTED)
  ; ("NOT_EXTENDED", NOT_EXTENDED)
  ; ("NETWORK_AUTHENTICATION_REQUIRED", NETWORK_AUTHENTICATION_REQUIRED)
  ].

(** ** Type level *)

(** The two forms of type expression the module uses. A union lists type
    names, never literals: every alternative is a reference to a declared
    type. *)
Inductive tsType : Type :=
| TLiteral (n : Z)
| TUnion (alts : list string).

(** Every [export type] of the module, in declaration order. The literal of
    a literal type is written out as the source writes it; it is not taken
    from the constant of the same name. *)
Definition type_decls : list (string * tsType) :=
  [ ("CONTINUE", TLiteral 100)
  ; ("SWITCHING_PROTOCOLS", TLiteral 101)
  ; ("PROCESSING", TLiteral 102)
  ; ("EARLY_HINTS", TLiteral 103)
  ; ("Informational", TUnion
      [ "CONTINUE"
      ; "SWITCHING_PROTOCOLS"
      ; "PROCESSING"
      ; "EARLY_HINTS"
      ])
  ; ("OK", TLiteral 200)
  ; ("CREATED", TLiteral 201)
  ; ("ACCEPTED", TLiteral 202)
  ; ("NON_AUTHORITATIVE_INFORMATION", TLiteral 203)
  ; ("NO_CONTENT", TLiteral 204)
  ; ("RESET_CONTENT", TLiteral 205)
  ; ("PARTIAL_CONTENT", TLiteral 206)
  ; ("MULTI_STATUS", TLiteral 207)
  ; ("ALREADY_REPORTED", TLiteral 208)
  ; ("IM_USED", TLiteral 226)
  ; ("Success", TUnion
      [ "OK"
      ; "CREATED"
      ; "ACCEPTED"
      ; "NON_AUTHORITATIVE_INFORMATION"
      ; "NO_CONTENT"
      ; "RESET_CONTENT"
      ; "PARTIAL_CONTENT"
      ; "MULTI_STATUS"
      ; "ALREADY_REPORTED"
      ; "IM_USED"
      ])
  ; ("MULTIPLE_CHOICES", TLiteral 300)
  ; ("MOVED_PERMANENTLY", TLiteral 301)
  ; ("FOUND", TLiteral 302)
  ; ("SEE_OTHER", TLiteral 303)
  ; ("NOT_MODIFIED", TLiteral 304)
  ; ("USE_PROXY", TLiteral 305)
  ; ("SWITCH_PROXY", TLiteral 306)
  ; ("TEMPORARY_REDIRECT", TLiteral 307)
  ; ("PERMANENT_REDIRECT", TLiteral 308)
  ; ("Redirection", TUnion
      [ "MULTIPLE_CHOICES"
      ; "MOVED_PERMANENTLY"
      ; "FOUND"
      ; "SEE_OTHER"
      ; "NOT_MODIFIED"
      ; "USE_PROXY"
      ; "SWITCH_PROXY"
      ; "TEMPORARY_REDIRECT"
      ; "PERMANENT_REDIRECT"
      ])
  ; ("BAD_REQUEST", TLiteral 400)
  ; ("UNAUTHORISED", TLiteral 401)
  ; ("PAYMENT_REQUIRED", TLiteral 402)
  ; ("FORBIDDEN", TLiteral 403)
  ; ("NOT_FOUND", TLiteral 404)
  ; ("METHOD_NOT_ALLOWED", TLiteral 405)
  ; ("NOT_ACCEPTABLE", TLiteral 406)
  ; ("PROXY_AUTHENTICATION_REQUIRED", TLiteral 407)
  ; ("REQUEST_TIMEOUT", TLiteral 408)
  ; ("CONFLICT", TLiteral 409)
  ; ("GONE", TLiteral 410)
  ; ("LENGTH_REQUIRED", TLiteral 411)
  ; ("PRECONDITION_FAILED", TLiteral 412)
  ; ("PAYLOAD_TOO_LARGE", TLiteral 413)
  ; ("URI_TOO_LONG", TLiteral 414)
  ; ("UNSUPPORTED_MEDIA_TYPE", TLiteral 415)
  ; ("RANGE_NOT_SATISFIABLE", TLiteral 416)
  ; ("EXPECTATION_FAILED", TLiteral 417)
  ; ("IM_A_TEAPOT", TLiteral 418)
  ; ("MISDIRECTED_REQUEST", TLiteral 421)
  ; ("UNPROCESSABLE_ENTRY", TLiteral 422)
  ; ("LOCKED", TLiteral 423)
  ; ("FAILED_DEPENDENCY", TLiteral 424)
  ; ("TOO_EARLY", TLiteral 425)
  ; ("UPGRADE_REQUIRED", TLiteral 426)
  ; ("PRECONDITION_REQUIRED", TLiteral 428)
  ; ("TOO_MANY_REQUESTS", TLiteral 429)
  ; ("REQUEST_HEADER_FIELDS_TOO_LARGE", TLiteral 431)
  ; ("UNAVAILABLE_FOR_LEGAL_REASONS", TLiteral 451)
  ; ("ClientError", TUnion
      [ "BAD_REQUEST"
      ; "UNAUTHORISED"
      ; "PAYMENT_REQUIRED"
      ; "FORBIDDEN"
      ; "NOT_FOUND"
      ; "METHOD_NOT_ALLOWED"
      ; "NOT_ACCEPTABLE"
      ; "PROXY_AUTHENTICATION_REQUIRED"
      ; "REQUEST_TIMEOUT"
      ; "CONFLICT"
      ; "GONE"
      ; "LENGTH_REQUIRED"
      ; "PRECONDITION_FAILED"
      ; "PAYLOAD_TOO_LARGE"
      ; "URI_TOO_LONG"
      ; "UNSUPPORTED_MEDIA_TYPE"
      ; "RANGE_NOT_SATISFIABLE"
      ; "EXPECTATION_FAILED"
      ; "IM_A_TEAPOT"
      ; "MISDIRECTED_REQUEST"
      ; "UNPROCESSABLE_ENTRY"
      ; "LOCKED"
      ; "FAILED_DEPENDENCY"
      ; "TOO_EARLY"
      ; "UPGRADE_REQUIRED"
      ; "PRECONDITION_REQUIRED"
      ; "TOO_MANY_REQUESTS"
      ; "REQUEST_HEADER_FIELDS_TOO_LARGE"
      ; "UNAVAILABLE_FOR_LEGAL_REASONS"
      ])
  ; ("INTERNAL_SERVER_ERROR", TLiteral 500)
  ; ("NOT_IMPLEMENTED", TLiteral 501)
  ; ("BAD_GATEWAY", TLiteral 502)
  ; ("SERVICE_UNAVAILABLE", TLiteral 503)
  ; ("GATEWAY_TIMEOUT", TLiteral 504)
  ; ("HTTP_VERSION_NOT_SUPPORTED", TLiteral 505)
  ; ("VARIANT_ALSO_NEGOTIATES", TLiteral 506)
  ; ("INSUFFICIENT_STORAGE", TLiteral 507)
  ; ("LOOP_DETECTED", TLiteral 508)
  ; ("NOT_EXTENDED", TLiteral 510)
  ; ("NETWORK_AUTHENTICATION_REQUIRED", TLiteral 511)
  ; ("ServerError", TUnion
      [ "INTERNAL_SERVER_ERROR"
      ; "NOT_IMPLEMENTED"
      ; "BAD_GATEWAY"
      ; "SERVICE_UNAVAILABLE"
      ; "GATEWAY_TIMEOUT"
      ; "HTTP_VERSION_NOT_SUPPORTED"
      ; "VARIANT_ALSO_NEGOTIATES"
      ; "INSUFFICIENT_STORAGE"
      ; "LOOP_DETECTED"
      ; "NOT_EXTENDED"
      ; "NETWORK_AUTHENTICATION_REQUIRED"
      ])
  ; ("HTTPStatus", TUnion
      [ "Informational"
      ; "Success"
      ; "Redirection"
      ; "ClientError"
      ; "ServerError"
      ])
  ].

(** *** Meaning of a type: the values that inhabit it *)

(** First binding of a name in a declaration list. *)
Fixpoint lookup {A : Type} (x : string) (l : list (string * A)) : option A :=
  match l with
  | [] => None
  | (y, a) :: l' => if String.eqb x y then Some a else lookup x l'
  end.

(** The values of a union are the values of its alternatives, in order; the
    union has no meaning ([None]) as soon as one alternative has none. *)
Fixpoint gather (l : list (option (list Z))) : option (list Z) :=
  match l with
  | [] => Some []
  | None :: _ => None
  | Some v :: l' =>
      match gather l' with
      | Some vs => Some (v ++ vs)%list
      | None => None
      end
  end.

(** [inhabitants decls fuel t]: the values of [t], resolving the names of a
    union in [decls]. [fuel] bounds the depth of name resolution; the result
    is [None] when a name is undeclared or the fuel runs out. *)
Fixpoint inhabitants (decls : list (string * tsType)) (fuel : nat) (t : tsType)
  : option (list Z) :=
  match t with
  | TLiteral n => Some [n]
  | TUnion alts =>
      match fuel with
      | O => None
      | S fuel' =>
          gather (map (fun x => match lookup x decls with
                                | Some t' => inhabitants decls fuel' t'
                                | None => None
                                end) alts)
      end
  end.

(** The module nests names two deep: [HTTPStatus] is a union of category
    unions, which are unions of literal types. *)
Definition resolution_depth : nat := 2.

(** The values of the exported type named [x]. *)
Definition type_values (x : string) : option (list Z) :=
  match lookup x type_decls with
  | Some t => inhabitants type_decls resolution_depth t
  | None => None
  end.

Definition members (x : string) : list Z :=
  match type_values x with
  | Some l => l
  | None => []
  end.

(** A number literal [z] is assignable to the exported type [x]. *)
Definition has_type (z : Z) (x : string) : bool :=
  existsb (Z.eqb z) (members x).

(** ** The five categories *)

Inductive Category : Type :=
| Informational
| Success
| Redirection
| ClientError
| ServerError.

Definition all_categories : list Category :=
  [Informational; Success; Redirection; ClientError; ServerError].

(** The exported union type that carries each category. *)
Definition category_type (c : Category) : string :=
  match c with
  | Informational => "Informational"
  | Success => "Success"
  | Redirection => "Redirection"
  | ClientError => "ClientError"
  | ServerError => "ServerError"
  end.

Definition category_members (c : Category) : list Z :=
  members (category_type c).

Definition HTTPStatus_members : list Z := members "HTTPStatus".

Definition Category_eqb (c d : Category) : bool :=
  match c, d with
  | Informational, Informational
  | Success, Success
  | Redirection, Redirection
  | ClientError, ClientError
  | ServerError, ServerError => true
  | _, _ => false
  end.

(** The names a category's union lists, as the source writes them. *)
Definition category_alternatives (c : Category) : list string :=
  match lookup (category_type c) type_decls with
  | Some (TUnion alts) => alts
  | _ => []
  end.

(** The category whose union names the constant [x], if any. *)
Definition category_of_name (x : string) : option Category :=
  find (fun c => existsb (String.eqb x) (category_alternatives c)) all_categories.

(** ** The specification's side of the comparison *)

(** The canonical code table of the specification (section 6), transcribed
    row by row as [value NAME]. *)
Definition spec_canonical_table : list (Z * string) :=
  [ (100, "CONTINUE")
  ; (101, "SWITCHING_PROTOCOLS")
  ; (102, "PROCESSING")
  ; (103, "EARLY_HINTS")
  ; (200, "OK")
  ; (201, "CREATED")
  ; (202, "ACCEPTED")
  ; (203, "NON_AUTHORITATIVE_INFORMATION")
  ; (204, "NO_CONTENT")
  ; (205, "RESET_CONTENT")
  ; (206, "PARTIAL_CONTENT")
  ; (207, "MULTI_STATUS")
  ; (208, "ALREADY_REPORTED")
  ; (226, "IM_USED")
  ; (300, "MULTIPLE_CHOICES")
  ; (301, "MOVED_PERMANENTLY")
  ; (302, "FOUND")
  ; (303, "SEE_OTHER")
  ; (304, "NOT_MODIFIED")
  ; (305, "USE_PROXY")
  ; (306, "SWITCH_PROXY")
  ; (307, "TEMPORARY_REDIRECT")
  ; (308, "PERMANENT_REDIRECT")
  ; (400, "BAD_REQUEST")
  ; (401, "UNAUTHORISED")
  ; (402, "PAYMENT_REQUIRED")
  ; (403, "FORBIDDEN")
  ; (404, "NOT_FOUND")
  ; (405, "METHOD_NOT_ALLOWED")
  ; (406, "NOT_ACCEPTABLE")
  ; (407, "PROXY_AUTHENTICATION_REQUIRED")
  ; (408, "REQUEST_TIMEOUT")
  ; (409, "CONFLICT")
  ; (410, "GONE")
  ; (411, "LENGTH_REQUIRED")
  ; (412, "PRECONDITION_FAILED")
  ; (413, "PAYLOAD_TOO_LARGE")
  ; (414, "URI_TOO_LONG")
  ; (415, "UNSUPPORTED_MEDIA_TYPE")
  ; (416, "RANGE_NOT_SATISFIABLE")
  ; (417, "EXPECTATION_FAILED")
  ; (418, "IM_A_TEAPOT")
  ; (421, "MISDIRECTED_REQUEST")
  ; (422, "UNPROCESSABLE_ENTRY")
  ; (423, "LOCKED")
  ; (424, "FAILED_DEPENDENCY")
  ; (425, "TOO_EARLY")
  ; (426, "UPGRADE_REQUIRED")
  ; (428, "PRECONDITION_REQUIRED")
  ; (429, "TOO_MANY_REQUESTS")
  ; (431, "REQUEST_HEADER_FIELDS_TOO_LARGE")
  ; (451, "UNAVAILABLE_FOR_LEGAL_REASONS")
  ; (500, "INTERNAL_SERVER_ERROR")
  ; (501, "NOT_IMPLEMENTED")
  ; (502, "BAD_GATEWAY")
  ; (503, "SERVICE_UNAVAILABLE")
  ; (504, "GATEWAY_TIMEOUT")
  ; (505, "HTTP_VERSION_NOT_SUPPORTED")
  ; (506, "VARIANT_ALSO_NEGOTIATES")
  ; (507, "INSUFFICIENT_STORAGE")
  ; (508, "LOOP_DETECTED")
  ; (510, "NOT_EXTENDED")
  ; (511, "NETWORK_AUTHENTICATION_REQUIRED")
  ].

(** Leading digit of each class, as the glossary gives it:
    1 = Informational, 2 = Success, 3 = Redirection, 4 = ClientError,
    5 = ServerError. *)
Definition class_digit (c : Category) : Z :=
  match c with
  | Informational => 1
  | Success => 2
  | Redirection => 3
  | ClientError => 4
  | ServerError => 5
  end.

(** The specification's rule [category(code) = floor(code / 100)], mapped to
    the class tag. [Z.div] rounds towards minus infinity, so it is the floor. *)
Definition spec_category (code : Z) : option Category :=
  find (fun c => class_digit c =? code / 100) all_categories.

(** ** The registry and its operations *)

(** Modelled from the spec: the record [StatusEntry] of section 3. The
    source declares no record type, only constants and types; a row pairs a
    constant's value and name with its category. The [description] field is
    the doc comment of the constant, which no operation reads; it is left
    out. *)
Record StatusEntry : Type := mkEntry
  { code : Z
  ; name : string
  ; category : Category }.

(** The row of one exported constant: tagged with the category whose union
    names it; a constant that no union names has no row. *)
Definition entry_of (d : string * Z) : option StatusEntry :=
  match category_of_name (fst d) with
  | Some c => Some (mkEntry (snd d) (fst d) c)
  | None => None
  end.

Fixpoint rows (ds : list (string * Z)) : list StatusEntry :=
  match ds with
  | [] => []
  | d :: ds' =>
      match entry_of d with
      | Some e => e :: rows ds'
      | None => rows ds'
      end
  end.

(** Modelled from the spec: the registry of section 2, the table of all
    status entries built once at load. The source has no table value; the
    rows are assembled from the source's constants, in declaration order,
    and from its category unions. *)
Definition registry : list StatusEntry := rows const_decls.

(** Modelled from the spec: the single error kind of section 7. *)
Inductive RegistryError : Type :=
| NotFound.

Inductive outcome (A : Type) : Type :=
| Returns (a : A)
| Fails (e : RegistryError).

Arguments Returns {A} a.
Arguments Fails {A} e.

(** The operations run against the table the process holds. They are
    written in a state monad over that table, each as a reader of it. *)
Definition Store : Type := list StatusEntry.

Definition Reg (A : Type) : Type := Store -> A * Store.

Definition ret {A : Type} (a : A) : Reg A := fun s => (a, s).

Definition bind {A B : Type} (m : Reg A) (k : A -> Reg B) : Reg B :=
  fun s => let (a, s') := m s in k a s'.

Definition table : Reg Store := fun s => (s, s).

Notation "x <- m ;; k" := (bind m (fun x => k))
  (at level 61, m at next level, right associativity).

(** Stable insertion sort on the [code] field. *)
Fixpoint insert_by_code (e : StatusEntry) (l : list StatusEntry) : list StatusEntry :=
  match l with
  | [] => [e]
  | x :: l' => if code e <=? code x then e :: l else x :: insert_by_code e l'
  end.

Definition sort_by_code (l : list StatusEntry) : list StatusEntry :=
  fold_right insert_by_code [] l.

(** The order the sort establishes. *)
Definition code_le (a b : StatusEntry) : Prop := code a <= code b.

Definition found (r : option StatusEntry) : outcome StatusEntry :=
  match r with
  | Some e => Returns e
  | None => Fails NotFound
  end.

(** Modelled from the spec: [lookupByCode] of section 4.1, absent from the
    source. "Returns the entry whose code matches exactly. Fails with a
    NotFound condition if code is not one of the registered values." *)
Definition lookupByCode (c : Z) : Reg (outcome StatusEntry) :=
  t <- table ;;
  ret (found (find (fun e => code e =? c) t)).

(** Modelled from the spec: [lookupByName] of section 4.1, absent from the
    source. "Exact, case-sensitive match against the registered symbolic
    name. Fails with NotFound if absent." *)
Definition lookupByName (n : string) : Reg (outcome StatusEntry) :=
  t <- table ;;
  ret (found (find (fun e => String.eqb (name e) n) t)).

(** Modelled from the spec: [listByCategory] of section 4.1, absent from
    the source. "Returns all entries whose category matches, ordered by
    ascending code." *)
Definition listByCategory (c : Category) : Reg (list StatusEntry) :=
  t <- table ;;
  ret (sort_by_code (filter (fun e => Category_eqb (category e) c) t)).

(** Modelled from the spec: [allEntries] of section 4.1, absent from the
    source. "The full registry in ascending code order." *)
Definition allEntries : Reg (list StatusEntry) :=
  t <- table ;;
  ret (sort_by_code t).

(** The result of an operation on the table as built at load. *)
Definition eval {A : Type} (m : Reg A) : A := fst (m registry).

(** ** Decision procedures used by the proofs *)

Fixpoint distinctb {A : Type} (eqb : A -> A -> bool) (l : list A) : bool :=
  match l with
  | [] => true
  | x :: l' => negb (existsb (eqb x) l') && distinctb eqb l'
  end.

Fixpoint ascendingb (l : list Z) : bool :=
  match l with
  | [] => true
  | x :: l' =>
      match l' with
      | [] => true
      | y :: _ => (x <? y) && ascendingb l'
      end
  end.

Definition swap {A B : Type} (p : A * B) : B * A := (snd p, fst p).

(** The literal-type declarations among a declaration list, as
    [(name, value)] pairs in order. *)
Fixpoint literal_types (ds : list (string * tsType)) : list (string * Z) :=
  match ds with
  | [] => []
  | (x, TLiteral n) :: ds' => (x, n) :: literal_types ds'
  | (_, TUnion _) :: ds' => literal_types ds'
  end.

(** ** The module as an importer sees it *)

(** [import * as HTTP from "HTTPStatusCodes"] binds the module's value
    exports; [HTTP.x] is the constant named [x], and is undefined ([None])
    when the module exports no value of that name. Type exports are erased
    and give no property. *)
Definition namespace_get (x : string) : option Z := lookup x const_decls.

(** Scoping of a declaration list read top to bottom: no name is declared
    twice, and a union names only types declared above it. [seen] holds the
    names declared so far. *)
Fixpoint well_scoped (seen : list string) (ds : list (string * tsType)) : bool :=
  match ds with
  | [] => true
  | (x, t) :: ds' =>
      negb (existsb (String.eqb x) seen)
      && match t with
         | TLiteral _ => true
         | TUnion alts => forallb (fun a => existsb (String.eqb a) seen) alts
         end
      && well_scoped (x :: seen) ds'
  end.

(** The numbers the module admits as a status, written as interval tests:
    the runs of consecutive codes of the five blocks of constants. *)
Definition in_status_ranges (z : Z) : bool :=
  ((100 <=? z) && (z <=? 103))
  || ((200 <=? z) && (z <=? 208)) || (z =? 226)
  || ((300 <=? z) && (z <=? 308))
  || ((400 <=? z) && (z <=? 418)) || ((421 <=? z) && (z <=? 426))
  || ((428 <=? z) && (z <=? 429)) || (z =? 431) || (z =? 451)
  || ((500 <=? z) && (z <=? 508)) || ((510 <=? z) && (z <=? 511)).

(** The integers [lo, lo + n). *)
Definition zrange (lo : Z) (n : nat) : list Z :=
  map (fun k => lo + Z.of_nat k) (seq 0 n).

(** Spelling of the constants' names: capital letters in words joined by
    single underscores, a letter first and last. *)
Definition is_upper (c : Ascii.ascii) : bool :=
  let n := Ascii.nat_of_ascii c in (65 <=? n)%nat && (n <=? 90)%nat.

(** Code point 95 is the underscore. *)
Definition is_underscore (c : Ascii.ascii) : bool :=
  (Ascii.nat_of_ascii c =? 95)%nat.

Fixpoint snake_tail (after_underscore : bool) (s : string) : bool :=
  match s with
  | EmptyString => negb after_underscore
  | String c s' =>
      if is_upper c then snake_tail false s'
      else if is_underscore c then negb after_underscore && snake_tail true s'
      else false
  end.

Definition upper_snake (s : string) : bool :=
  match s with
  | EmptyString => false
  | String c s' => is_upper c && snake_tail false s'
  end.

(** * Properties *)

(** ** Declaration lists *)

Section Lookup.
Context {A : Type}.

Lemma lookup_In (x : string) (a : A) (l : list (string * A)) :
  lookup x l = Some a -> In (x, a) l.
Proof.
  induction l as [|[y b] l IH]; simpl; [discriminate|].
  destruct (String.eqb_spec x y) as [->|Hne].
  - intros [= ->]. now left.
  - intros H. right. auto.
Qed.

Lemma In_lookup (x : string) (a : A) (l : list (string * A)) :
  NoDup (map fst l) -> In (x, a) l -> lookup x l = Some a.
Proof.
  induction l as [|[y b] l IH]; simpl; [tauto|].
  intros Hnd [Heq|Hin].
  - injection Heq as -> ->. now rewrite String.eqb_refl.
  - inversion Hnd as [|? ? Hy Hnd']; subst.
    destruct (String.eqb_spec x y) as [->|Hne]; [|auto].
    exfalso. apply Hy. change y with (fst (y, a)). now apply in_map.
Qed.

Lemma lookup_None (x : string) (l : list (string * A)) :
  lookup x l = None <-> ~ In x (map fst l).
Proof.
  induction l as [|[y b] l IH]; simpl; [tauto|].
  destruct (String.eqb_spec x y) as [->|Hne].
  - split; [discriminate|]. intros H. exfalso. apply H. now left.
  - rewrite IH. split; [intros H [Heq|Hin]|]; [congruence|tauto|tauto].
Qed.
End Lookup.

(** ** Distinctness and order, decided by computation *)

Section Distinct.
Context {A : Type} (eqb : A -> A -> bool).
Hypothesis eqb_eq : forall x y, eqb x y = true <-> x = y.

Lemma existsb_eqb_In (x : A) (l : list A) :
  existsb (eqb x) l = true <-> In x l.
Proof.
  rewrite existsb_exists. split.
  - intros [y [Hin Hxy]]. apply eqb_eq in Hxy. now subst.
  - intros Hin. exists x. split; [assumption|now apply eqb_eq].
Qed.

Lemma distinctb_NoDup (l : list A) :
  distinctb eqb l = true <-> NoDup l.
Proof.
  induction l as [|x l IH]; simpl.
  - split; [constructor|reflexivity].
  - rewrite andb_true_iff, negb_true_iff, IH. split.
    + intros [Hx Hl]. constructor; [|assumption].
      intros Hin. apply existsb_eqb_In in Hin. congruence.
    + intros Hnd. inversion Hnd as [|? ? Hx Hl]; subst. split; [|assumption].
      destruct (existsb (eqb x) l) eqn:E; [|reflexivity].
      apply existsb_eqb_In in E. contradiction.
Qed.
End Distinct.

Lemma ascendingb_sorted (l : list Z) :
  ascendingb l = true -> StronglySorted Z.lt l.
Proof.
  intros H. apply Sorted_StronglySorted; [intros x y z; apply Z.lt_trans|].
  induction l as [|x l IH]; [constructor|].
  destruct l as [|y l].
  - repeat constructor.
  - simpl in H. apply andb_true_iff in H as [Hxy Hl].
    constructor; [now apply IH|]. constructor. now apply Z.ltb_lt.
Qed.

(** A strictly ascending list repeats no element. *)
Lemma ascending_NoDup (l : list Z) :
  StronglySorted Z.lt l -> NoDup l.
Proof.
  induction 1 as [|x l Hs IH Hx]; constructor; [|assumption].
  intros Hin. rewrite Forall_forall in Hx. specialize (Hx x Hin). lia.
Qed.

(** Two rows of a list with distinct [f]-images that agree on [f] are the
    same row. *)
Lemma NoDup_map_agree {A B : Type} (f : A -> B) (l : list A) :
  NoDup (map f l) -> forall a b, In a l -> In b l -> f a = f b -> a = b.
Proof.
  induction l as [|x l IH]; simpl; [tauto|].
  intros Hnd a b Ha Hb Hf. inversion Hnd as [|? ? Hx Hl]; subst.
  destruct Ha as [->|Ha], Hb as [->|Hb]; auto.
  - exfalso. apply Hx. rewrite Hf. now apply in_map.
  - exfalso. apply Hx. rewrite <- Hf. now apply in_map.
Qed.

(** ** Name resolution does not depend on the fuel, once it suffices *)

Lemma gather_pointwise (f g : string -> option (list Z)) (alts : list string) :
  (forall x v, f x = Some v -> g x = Some v) ->
  forall l, gather (map f alts) = Some l -> gather (map g alts) = Some l.
Proof.
  intros Hfg. induction alts as [|a alts IH]; simpl; [trivial|].
  intros l. destruct (f a) as [v|] eqn:Ea; [|discriminate].
  rewrite (Hfg _ _ Ea).
  destruct (gather (map f alts)) as [vs|]; [|discriminate].
  now rewrite (IH vs eq_refl).
Qed.

Lemma inhabitants_more_fuel (decls : list (string * tsType)) (n : nat) :
  forall (t : tsType) (l : list Z),
    inhabitants decls n t = Some l ->
    forall m, (n <= m)%nat -> inhabitants decls m t = Some l.
Proof.
  induction n as [|n IH]; intros [k|alts] l H m Hm.
  - now destruct m.
  - discriminate.
  - now destruct m.
  - destruct m as [|m]; [lia|]. simpl in *.
    revert l H. apply gather_pointwise. intros x v.
    destruct (lookup x decls) as [t'|]; [|discriminate].
    intros Hx. apply (IH _ _ Hx). lia.
Qed.

(** Every exported type resolves within [resolution_depth]; giving the
    resolution more fuel changes nothing. *)
Lemma type_values_resolved (x : string) (t : tsType) :
  In (x, t) type_decls ->
  forall m, (resolution_depth <= m)%nat ->
    inhabitants type_decls m t = Some (members x).
Proof.
  intros Hin m Hm.
  apply inhabitants_more_fuel with (n := resolution_depth); [|assumption].
  revert Hin. unfold type_decls. simpl In.
  intuition (match goal with H : _ = (x, t) |- _ => injection H as <- <- end;
             vm_compute; reflexivity).
Qed.

(** ** Sorting by code *)

Lemma insert_by_code_perm (e : StatusEntry) (l : list StatusEntry) :
  Permutation (insert_by_code e l) (e :: l).
Proof.
  induction l as [|x l IH]; simpl; [reflexivity|].
  destruct (code e <=? code x); [reflexivity|].
  rewrite IH. apply perm_swap.
Qed.

Lemma sort_by_code_perm (l : list StatusEntry) :
  Permutation (sort_by_code l) l.
Proof.
  induction l as [|x l IH]; simpl; [reflexivity|].
  rewrite insert_by_code_perm. now constructor.
Qed.

Lemma insert_by_code_sorted (e : StatusEntry) (l : list StatusEntry) :
  Sorted code_le l -> Sorted code_le (insert_by_code e l).
Proof.
  induction 1 as [|x l Hs IH Hx]; simpl; [repeat constructor|].
  destruct (Z.leb_spec (code e) (code x)) as [Hle|Hgt].
  - repeat constructor; assumption.
  - constructor; [assumption|].
    destruct l as [|y l]; simpl.
    + constructor. unfold code_le. lia.
    + inversion Hx; subst.
      destruct (code e <=? code y); constructor; unfold code_le in *; lia.
Qed.

Lemma sort_by_code_sorted (l : list StatusEntry) :
  Sorted code_le (sort_by_code l).
Proof.
  induction l as [|x l IH]; simpl; [constructor|].
  now apply insert_by_code_sorted.
Qed.

(** ** Lookups by [find] *)

Lemma find_none_iff {A : Type} (p : A -> bool) (l : list A) :
  find p l = None <-> forall a, In a l -> p a = false.
Proof.
  induction l as [|x l IH]; simpl; [tauto|].
  destruct (p x) eqn:E.
  - split; [discriminate|]. intros H. specialize (H x (or_introl eq_refl)). congruence.
  - rewrite IH. split.
    + intros H a [<-|Ha]; auto.
    + intros H a Ha. auto.
Qed.

Lemma found_fails (r : option StatusEntry) :
  found r = Fails NotFound <-> r = None.
Proof. destruct r; simpl; split; congruence. Qed.

(** ** Facts about the module's tables, read off by computation *)

Lemma const_names_distinct : NoDup (map fst const_decls).
Proof. apply (distinctb_NoDup String.eqb String.eqb_eq). vm_compute. reflexivity. Qed.

Lemma const_values_distinct : NoDup (map snd const_decls).
Proof. apply (distinctb_NoDup Z.eqb Z.eqb_eq). vm_compute. reflexivity. Qed.

(** The literal types of the module, in order, are its constants. *)
Lemma literal_types_are_constants : literal_types type_decls = const_decls.
Proof. vm_compute. reflexivity. Qed.

(** No constant is left without a row: every one is named by a category. *)
Lemma registry_covers_constants :
  map (fun e => (name e, code e)) registry = const_decls.
Proof. vm_compute. reflexivity. Qed.

Lemma registry_codes : map code registry = map snd const_decls.
Proof. rewrite <- registry_covers_constants, map_map. reflexivity. Qed.

Lemma registry_names : map name registry = map fst const_decls.
Proof. rewrite <- registry_covers_constants, map_map. reflexivity. Qed.

Lemma HTTPStatus_members_are_codes : HTTPStatus_members = map snd const_decls.
Proof. vm_compute. reflexivity. Qed.

Lemma HTTPStatus_is_union_of_categories :
  HTTPStatus_members = flat_map category_members all_categories.
Proof. vm_compute. reflexivity. Qed.

Lemma literal_types_In (x : string) (n : Z) (ds : list (string * tsType)) :
  In (x, n) (literal_types ds) <-> In (x, TLiteral n) ds.
Proof.
  induction ds as [|[y [k|alts]] ds IH]; simpl; [tauto| |].
  - rewrite IH. split; (intros [H|H]; [left|right; assumption]); congruence.
  - rewrite IH. split; [auto|]. intros [H|H]; [discriminate|assumption].
Qed.

Lemma Category_eqb_eq (c d : Category) : Category_eqb c d = true <-> c = d.
Proof. destruct c, d; simpl; split; congruence. Qed.

Lemma class_digit_inj (c d : Category) : class_digit c = class_digit d -> c = d.
Proof. destruct c, d; simpl; congruence. Qed.

Lemma spec_category_digit (z : Z) (c : Category) :
  spec_category z = Some c <-> z / 100 = class_digit c.
Proof.
  unfold spec_category. split.
  - intros H. apply find_some in H as [_ H]. lia.
  - intros ->. destruct c; reflexivity.
Qed.

Lemma category_members_digit (c : Category) (z : Z) :
  In z (category_members c) -> z / 100 = class_digit c.
Proof.
  assert (forallb (fun z => z / 100 =? class_digit c) (category_members c) = true) as H
    by (destruct c; vm_compute; reflexivity).
  rewrite forallb_forall in H. intros Hin. apply Z.eqb_eq. auto.
Qed.

Lemma category_members_exported (c : Category) (z : Z) :
  In z (category_members c) -> In z (map snd const_decls).
Proof.
  rewrite <- HTTPStatus_members_are_codes, HTTPStatus_is_union_of_categories.
  intros Hin. apply in_flat_map. exists c. split; [destruct c; simpl; tauto|assumption].
Qed.

Lemma exported_in_category (z : Z) :
  In z (map snd const_decls) -> exists c, In z (category_members c).
Proof.
  rewrite <- HTTPStatus_members_are_codes, HTTPStatus_is_union_of_categories.
  intros Hin. apply in_flat_map in Hin as [c [_ Hc]]. now exists c.
Qed.

(** ** The module against its specification *)

(** C1. The module exports exactly one integer constant per row of the
    specification's canonical table, bound to the stated value, and no other
    status constant: the export list is the table, row for row, with the
    columns swapped; no name and no value occurs twice; and the three values
    the specification spells out are as stated. *)
Theorem constants_are_canonical_table :
  const_decls = map swap spec_canonical_table
  /\ (forall (n : string) (z : Z),
        In (n, z) const_decls <-> In (z, n) spec_canonical_table)
  /\ NoDup (map fst const_decls)
  /\ NoDup (map snd const_decls)
  /\ CONTINUE = 100
  /\ NOT_FOUND = 404
  /\ NETWORK_AUTHENTICATION_REQUIRED = 511.
Proof.
  assert (const_decls = map swap spec_canonical_table) as E
    by (vm_compute; reflexivity).
  split; [exact E|]. split.
  - intros n z. rewrite E, in_map_iff. split.
    + intros [[z' n'] [Heq Hin]]. unfold swap in Heq. simpl in Heq.
      now injection Heq as -> ->.
    + intros Hin. now exists (z, n).
  - repeat split; auto using const_names_distinct, const_values_distinct.
Qed.

(** C2. Category and hundreds digit agree. Every member of a category union
    has that category's leading digit ([floor(code / 100)]); a category's
    members are exactly the exported codes that the specification's rule
    [spec_category] sends to it; every exported code lies in exactly one
    category; and every row of the registry carries the category the rule
    computes from its code. *)
Theorem category_is_hundreds_digit :
  (forall (c : Category) (z : Z),
      In z (category_members c) -> z / 100 = class_digit c)
  /\ (forall (c : Category) (z : Z),
        In z (category_members c) <->
        In z (map snd const_decls) /\ spec_category z = Some c)
  /\ (forall z : Z,
        In z (map snd const_decls) ->
        exists c, In z (category_members c)
                  /\ forall d, In z (category_members d) -> d = c)
  /\ (forall e : StatusEntry,
        In e registry -> spec_category (code e) = Some (category e)).
Proof.
  assert (forall z, In z (map snd const_decls) ->
          exists c, In z (category_members c)
                    /\ forall d, In z (category_members d) -> d = c) as Huniq.
  { intros z Hz. destruct (exported_in_category z Hz) as [c Hc].
    exists c. split; [assumption|]. intros d Hd.
    apply class_digit_inj.
    now rewrite <- (category_members_digit c z Hc), <- (category_members_digit d z Hd). }
  split; [exact category_members_digit|]. split; [|split; [exact Huniq|]].
  - intros c z. split.
    + intros Hin. split; [now apply category_members_exported with c|].
      apply spec_category_digit. now apply category_members_digit.
    + intros [Hz Hc]. destruct (Huniq z Hz) as [d [Hd _]].
      apply spec_category_digit in Hc.
      rewrite (category_members_digit d z Hd) in Hc.
      now rewrite <- (class_digit_inj _ _ Hc).
  - intros e He.
    assert (forallb (fun e => match spec_category (code e) with
                              | Some c => Category_eqb c (category e)
                              | None => false
                              end) registry = true) as H
      by (vm_compute; reflexivity).
    rewrite forallb_forall in H. specialize (H e He).
    destruct (spec_category (code e)) as [c|]; [|discriminate].
    apply Category_eqb_eq in H. now subst.
Qed.

(** Witness for C2 at the constant [NOT_FOUND]: 404 is a member of
    [ClientError], so its hundreds digit is 4. *)
Lemma category_is_hundreds_digit_witness :
  In NOT_FOUND (category_members ClientError) /\ NOT_FOUND / 100 = 4.
Proof.
  assert (In NOT_FOUND (category_members ClientError)) as Hin
    by (vm_compute; tauto).
  split; [exact Hin|].
  exact (proj1 category_is_hundreds_digit ClientError NOT_FOUND Hin).
Defined.

(** C3. Over the whole table no two constants share a value and no two
    share a name; the same holds of the registry's rows: two rows with the
    same code, or with the same name, are one row. *)
Theorem codes_and_names_unique :
  NoDup (map snd const_decls)
  /\ NoDup (map fst const_decls)
  /\ NoDup (map code registry)
  /\ NoDup (map name registry)
  /\ (forall e1 e2 : StatusEntry,
        In e1 registry -> In e2 registry -> code e1 = code e2 -> e1 = e2)
  /\ (forall e1 e2 : StatusEntry,
        In e1 registry -> In e2 registry -> name e1 = name e2 -> e1 = e2).
Proof.
  assert (NoDup (map code registry)) as Hc
    by (rewrite registry_codes; exact const_values_distinct).
  assert (NoDup (map name registry)) as Hn
    by (rewrite registry_names; exact const_names_distinct).
  repeat split;
    auto using const_names_distinct, const_values_distinct.
  - exact (NoDup_map_agree code registry Hc).
  - exact (NoDup_map_agree name registry Hn).
Qed.

(** C9. Value level and type level define the same name-to-code mapping.
    Every exported constant has an exported literal type of the same name
    whose literal is the constant's value, and that type has this value as
    its only inhabitant; conversely every literal type has a constant of the
    same name and value; in declaration order the two lists coincide. The
    types [CONTINUE], [NOT_FOUND] and [NETWORK_AUTHENTICATION_REQUIRED] are
    the literals 100, 404 and 511, the values of the constants. *)
Theorem literal_types_mirror_constants :
  literal_types type_decls = const_decls
  /\ (forall (n : string) (z : Z),
        In (n, z) const_decls ->
        lookup n type_decls = Some (TLiteral z) /\ type_values n = Some [z])
  /\ (forall (n : string) (z : Z),
        lookup n type_decls = Some (TLiteral z) -> lookup n const_decls = Some z)
  /\ lookup "CONTINUE" type_decls = Some (TLiteral CONTINUE)
  /\ lookup "NOT_FOUND" type_decls = Some (TLiteral NOT_FOUND)
  /\ lookup "NETWORK_AUTHENTICATION_REQUIRED" type_decls
     = Some (TLiteral NETWORK_AUTHENTICATION_REQUIRED).
Proof.
  assert (NoDup (map fst type_decls)) as Htn
    by (apply (distinctb_NoDup String.eqb String.eqb_eq); vm_compute; reflexivity).
  split; [exact literal_types_are_constants|]. split; [|split].
  - intros n z Hin.
    rewrite <- literal_types_are_constants in Hin. apply literal_types_In in Hin.
    assert (lookup n type_decls = Some (TLiteral z)) as Hl by now apply In_lookup.
    split; [exact Hl|]. unfold type_values. now rewrite Hl.
  - intros n z Hl. apply In_lookup; [exact const_names_distinct|].
    rewrite <- literal_types_are_constants. apply literal_types_In.
    now apply lookup_In.
  - repeat split; vm_compute; reflexivity.
Qed.

(** Witness for C9 at [NOT_FOUND]: the constant is exported with value 404,
    so the type of that name is the literal 404 with 404 as its only value. *)
Lemma literal_types_mirror_constants_witness :
  In ("NOT_FOUND", 404) const_decls
  /\ lookup "NOT_FOUND" type_decls = Some (TLiteral 404)
  /\ type_values "NOT_FOUND" = Some [404].
Proof.
  assert (In ("NOT_FOUND", 404) const_decls) as Hin by (vm_compute; tauto).
  split; [exact Hin|].
  exact (proj1 (proj2 literal_types_mirror_constants) "NOT_FOUND" 404 Hin).
Defined.

(** C10. Membership is by enumeration, not by range. The values of
    [HTTPStatus] are exactly the values of the exported constants, and they
    are the values of the five categories put together; a category has no
    member that is not an exported code; and 419, 420, 427, 430 and 509,
    though their leading digit is a valid one, belong to no category and not
    to [HTTPStatus]. The resolution of [HTTPStatus] is complete: more fuel
    yields the same values. *)
Theorem membership_is_enumerated :
  (forall z : Z, In z HTTPStatus_members <-> In z (map snd const_decls))
  /\ HTTPStatus_members = flat_map category_members all_categories
  /\ (forall (c : Category) (z : Z),
        In z (category_members c) -> In z (map snd const_decls))
  /\ Forall (fun z => spec_category z <> None
                      /\ ~ In z HTTPStatus_members
                      /\ has_type z "HTTPStatus" = false
                      /\ forall c, ~ In z (category_members c))
            [419; 420; 427; 430; 509]
  /\ (forall m : nat, (resolution_depth <= m)%nat ->
        inhabitants type_decls m
          (TUnion ["Informational"; "Success"; "Redirection"; "ClientError";
                   "ServerError"])
        = Some HTTPStatus_members).
Proof.
  split; [intros z; now rewrite HTTPStatus_members_are_codes|].
  split; [exact HTTPStatus_is_union_of_categories|].
  split; [exact category_members_exported|]. split.
  - assert (forall z, has_type z "HTTPStatus" = false -> ~ In z HTTPStatus_members) as Hno.
    { intros z Hf Hin. unfold has_type in Hf.
      assert (existsb (Z.eqb z) (members "HTTPStatus") = true) as Ht
        by (apply existsb_exists; exists z; split; [exact Hin|apply Z.eqb_refl]).
      congruence. }
    repeat (constructor; [
      cbv beta;
      match goal with |- _ /\ ~ In ?z _ /\ _ =>
        assert (has_type z "HTTPStatus" = false) as Hf by (vm_compute; reflexivity);
        split; [vm_compute; discriminate|];
        split; [exact (Hno _ Hf)|];
        split; [exact Hf|];
        intros c Hc; apply (Hno _ Hf);
        rewrite HTTPStatus_members_are_codes;
        exact (category_members_exported c _ Hc)
      end|]).
    constructor.
  - intros m Hm.
    apply (type_values_resolved "HTTPStatus"); [|exact Hm].
    vm_compute. tauto.
Qed.

(** Witness for C10 at 418, a member of [ClientError]: it is the value of an
    exported constant ([IM_A_TEAPOT]). *)
Lemma membership_is_enumerated_witness :
  In 418 (category_members ClientError) /\ In 418 (map snd const_decls).
Proof.
  assert (In 418 (category_members ClientError)) as Hin by (vm_compute; tauto).
  split; [exact Hin|].
  exact (proj1 (proj2 (proj2 membership_is_enumerated)) ClientError 418 Hin).
Defined.

(** ** The registry's operations *)

Lemma find_code_none (l : list StatusEntry) (c : Z) :
  find (fun e => code e =? c) l = None <-> ~ In c (map code l).
Proof.
  rewrite find_none_iff, in_map_iff. split.
  - intros H [e [Hc He]]. specialize (H e He). apply Z.eqb_neq in H. contradiction.
  - intros H e He. apply Z.eqb_neq. intros Hc. apply H. now exists e.
Qed.

Lemma find_name_none (l : list StatusEntry) (n : string) :
  find (fun e => String.eqb (name e) n) l = None <-> ~ In n (map name l).
Proof.
  rewrite find_none_iff, in_map_iff. split.
  - intros H [e [Hn He]]. specialize (H e He). apply String.eqb_neq in H. contradiction.
  - intros H e He. apply String.eqb_neq. intros Hn. apply H. now exists e.
Qed.

Lemma found_returns (r : option StatusEntry) (e : StatusEntry) :
  found r = Returns e <-> r = Some e.
Proof. destruct r; simpl; split; congruence. Qed.

Lemma eval_lookupByCode (c : Z) :
  eval (lookupByCode c) = found (find (fun e => code e =? c) registry).
Proof. reflexivity. Qed.

Lemma eval_lookupByName (n : string) :
  eval (lookupByName n) = found (find (fun e => String.eqb (name e) n) registry).
Proof. reflexivity. Qed.

(** C4, as stated, does not hold: the listing has 63 rows, not 62. *)
Lemma allEntries_has_not_62_rows :
  ~ (List.length (eval allEntries) = 62%nat
     /\ StronglySorted Z.lt (map code (eval allEntries))
     /\ NoDup (eval allEntries)).
Proof. intros [H _]. vm_compute in H. discriminate. Qed.

(** C4, amended. [allEntries] returns the full registry, 63 rows (the number
    of names in the specification's table, of constants in the source and of
    values of the source's [HTTPStatus]), strictly ascending by code, with no
    row repeated; its codes are the values of [HTTPStatus] in source order.
    On any table it returns a permutation of the table in ascending code
    order. *)
Theorem allEntries_full_ascending :
  List.length (eval allEntries) = 63%nat
  /\ List.length spec_canonical_table = 63%nat
  /\ List.length const_decls = 63%nat
  /\ List.length HTTPStatus_members = 63%nat
  /\ StronglySorted Z.lt HTTPStatus_members
  /\ map code (eval allEntries) = HTTPStatus_members
  /\ Permutation (eval allEntries) registry
  /\ StronglySorted Z.lt (map code (eval allEntries))
  /\ NoDup (eval allEntries)
  /\ (forall s : Store,
        Permutation (fst (allEntries s)) s /\ Sorted code_le (fst (allEntries s))).
Proof.
  assert (StronglySorted Z.lt (map code (eval allEntries))) as Hs
    by (apply ascendingb_sorted; vm_compute; reflexivity).
  assert (map code (eval allEntries) = HTTPStatus_members) as Hm
    by (vm_compute; reflexivity).
  split; [vm_compute; reflexivity|].
  split; [vm_compute; reflexivity|].
  split; [vm_compute; reflexivity|].
  split; [vm_compute; reflexivity|].
  split; [rewrite <- Hm; exact Hs|].
  split; [exact Hm|].
  split; [apply sort_by_code_perm|].
  split; [exact Hs|].
  split; [apply NoDup_map_inv with (f := code); now apply ascending_NoDup|].
  intros s. split; [apply sort_by_code_perm|apply sort_by_code_sorted].
Qed.

(** C5. [listByCategory ClientError] returns exactly the registry's
    ClientError rows, ascending by code; the first code is 400, the last is
    451, every code lies in [400, 499]; the codes are the members of the
    source's [ClientError] union. *)
Theorem listByCategory_ClientError :
  let l := eval (listByCategory ClientError) in
  StronglySorted Z.lt (map code l)
  /\ hd_error (map code l) = Some 400
  /\ last (map code l) 0 = 451
  /\ Forall (fun e => 400 <= code e <= 499) l
  /\ (forall e : StatusEntry,
        In e l <-> In e registry /\ category e = ClientError)
  /\ map code l = category_members ClientError.
Proof.
  intros l.
  assert (map code l = category_members ClientError) as Hm
    by (vm_compute; reflexivity).
  split; [apply ascendingb_sorted; vm_compute; reflexivity|].
  split; [vm_compute; reflexivity|].
  split; [vm_compute; reflexivity|].
  split; [|split; [|exact Hm]].
  - apply Forall_forall. intros e He.
    assert (In (code e) (category_members ClientError)) as Hin
      by (rewrite <- Hm; now apply in_map).
    apply category_members_digit in Hin. simpl in Hin.
    pose proof (Z.div_mod (code e) 100 ltac:(lia)) as Hd.
    pose proof (Z.mod_pos_bound (code e) 100 ltac:(lia)) as Hb.
    lia.
  - intros e. subst l. unfold eval, listByCategory, bind, table, ret. cbn [fst].
    split.
    + intros He. apply (Permutation_in e (sort_by_code_perm _)) in He.
      apply filter_In in He as [He Hc]. now apply Category_eqb_eq in Hc.
    + intros [He Hc].
      apply (Permutation_in e (Permutation_sym (sort_by_code_perm _))).
      apply filter_In. split; [exact He|now apply Category_eqb_eq].
Qed.

(** C6. [lookupByCode 404] returns the row named NOT_FOUND, and
    [lookupByName "NOT_FOUND"] returns the row with code 404: both return
    the row of the constant [NOT_FOUND]. *)
Theorem lookup_NOT_FOUND :
  eval (lookupByCode 404) = Returns (mkEntry NOT_FOUND "NOT_FOUND" ClientError)
  /\ eval (lookupByName "NOT_FOUND") = Returns (mkEntry NOT_FOUND "NOT_FOUND" ClientError)
  /\ (exists e, eval (lookupByCode 404) = Returns e /\ name e = "NOT_FOUND")
  /\ (exists e, eval (lookupByName "NOT_FOUND") = Returns e /\ code e = 404).
Proof.
  repeat split; try (vm_compute; reflexivity);
    exists (mkEntry NOT_FOUND "NOT_FOUND" ClientError); split; vm_compute; reflexivity.
Qed.

(** C7. [lookupByCode] fails with [NotFound] exactly on the integers that
    are not the value of an exported constant, and an entry it returns has
    exactly the requested code (no coercion, rounding or nearest match);
    [lookupByName] fails with [NotFound] exactly on the strings that are not
    the name of an exported constant, compared character by character, and
    an entry it returns has exactly the requested name. In particular 999,
    419 (a neighbour of registered codes), "NOT_A_STATUS" and the lower-case
    "not_found" are not found. *)
Theorem lookup_fails_iff_unregistered :
  (forall c : Z,
      eval (lookupByCode c) = Fails NotFound <-> ~ In c (map snd const_decls))
  /\ (forall (c : Z) (e : StatusEntry),
        eval (lookupByCode c) = Returns e -> code e = c /\ In e registry)
  /\ (forall n : string,
        eval (lookupByName n) = Fails NotFound <-> ~ In n (map fst const_decls))
  /\ (forall (n : string) (e : StatusEntry),
        eval (lookupByName n) = Returns e -> name e = n /\ In e registry)
  /\ eval (lookupByCode 999) = Fails NotFound
  /\ eval (lookupByName "NOT_A_STATUS") = Fails NotFound
  /\ eval (lookupByCode 419) = Fails NotFound
  /\ eval (lookupByName "not_found") = Fails NotFound.
Proof.
  split; [|split; [|split; [|split]]].
  - intros c. now rewrite eval_lookupByCode, found_fails, find_code_none, registry_codes.
  - intros c e. rewrite eval_lookupByCode, found_returns. intros H.
    apply find_some in H as [Hin Hc]. split; [now apply Z.eqb_eq|exact Hin].
  - intros n. now rewrite eval_lookupByName, found_fails, find_name_none, registry_names.
  - intros n e. rewrite eval_lookupByName, found_returns. intros H.
    apply find_some in H as [Hin Hn]. split; [now apply String.eqb_eq|exact Hin].
  - repeat split; vm_compute; reflexivity.
Qed.

(** Witness for C7 at 999: the lookup fails there, hence 999 is the value of
    no exported constant. *)
Lemma lookup_fails_iff_unregistered_witness :
  eval (lookupByCode 999) = Fails NotFound /\ ~ In 999 (map snd const_decls).
Proof.
  assert (eval (lookupByCode 999) = Fails NotFound) as Hf by (vm_compute; reflexivity).
  split; [exact Hf|].
  exact (proj1 (proj1 lookup_fails_iff_unregistered 999) Hf).
Defined.

(** ** Further properties of the declarations *)

Lemma type_names_distinct : NoDup (map fst type_decls).
Proof. apply (distinctb_NoDup String.eqb String.eqb_eq). vm_compute. reflexivity. Qed.

Lemma existsb_string_In (x : string) (l : list string) :
  existsb (String.eqb x) l = true <-> In x l.
Proof. apply existsb_eqb_In. exact String.eqb_eq. Qed.

(** What [well_scoped] checks, read at one declaration of the list. *)
Lemma well_scoped_at (ds : list (string * tsType)) :
  forall (seen : list string),
    well_scoped seen ds = true ->
    forall pre x t suf,
      ds = (pre ++ (x, t) :: suf)%list ->
      ~ (In x seen \/ In x (map fst pre))
      /\ forall alts, t = TUnion alts ->
           forall a, In a alts -> In a seen \/ In a (map fst pre).
Proof.
  induction ds as [|[y u] ds IH]; intros seen Hw pre x t suf Heq.
  - destruct pre; discriminate.
  - simpl in Hw. apply andb_true_iff in Hw as [Hw Hrest].
    apply andb_true_iff in Hw as [Hfresh Halts].
    destruct pre as [|[y' u'] pre].
    + simpl in Heq. injection Heq as -> -> _. split.
      * intros [Hin|[]]. apply existsb_string_In in Hin.
        rewrite Hin in Hfresh. discriminate.
      * intros alts -> a Ha. left. rewrite forallb_forall in Halts.
        now apply existsb_string_In, Halts.
    + simpl in Heq. injection Heq as -> -> Heq.
      destruct (IH (y' :: seen) Hrest pre x t suf Heq) as [Hx Ha]. split.
      * intros [Hin|[Hin|Hin]]; apply Hx; simpl; auto.
      * intros alts Ht a Hin.
        destruct (Ha alts Ht a Hin) as [[<-|H]|H]; simpl; auto.
Qed.

(** X1. The names of the union types are types only. No category name, nor
    [HTTPStatus], is a value export: [HTTP.ServerError] and the like are
    undefined for an importer of the module. *)
Theorem union_names_are_type_only :
  forall (x : string) (alts : list string),
    In (x, TUnion alts) type_decls -> namespace_get x = None.
Proof.
  intros x alts Hin. unfold namespace_get. apply lookup_None.
  assert (In x ["Informational"; "Success"; "Redirection"; "ClientError";
                "ServerError"; "HTTPStatus"]) as Hx.
  { revert Hin. unfold type_decls. simpl In.
    intuition (try discriminate;
               match goal with H : _ = (x, TUnion alts) |- _ =>
                 injection H as <- _; simpl; tauto end). }
  intros Hc.
  assert (forallb (fun u => negb (existsb (String.eqb u) (map fst const_decls)))
            ["Informational"; "Success"; "Redirection"; "ClientError";
             "ServerError"; "HTTPStatus"] = true) as Hb by (vm_compute; reflexivity).
  rewrite forallb_forall in Hb. specialize (Hb x Hx).
  apply existsb_string_In in Hc. rewrite Hc in Hb. discriminate.
Qed.

(** Applied to [ServerError], the union [README.md] reads a constant from. *)
Lemma union_names_are_type_only_witness :
  namespace_get "ServerError" = None.
Proof.
  apply (union_names_are_type_only "ServerError"
           (category_alternatives ServerError)).
  vm_compute. tauto.
Defined.

(** X2. The two examples of [README.md]. [HTTP.NOT_FOUND === 404] holds.
    [HTTP.SeverError.NETWORK_AUTHENTICATION_REQUIRED === 511] reads a
    property of [HTTP.SeverError], which the module does not export, neither
    as a value nor as a type, under that spelling or as [ServerError]'s
    value; the constant itself is exported at top level with value 511. *)
Theorem readme_examples :
  namespace_get "NOT_FOUND" = Some 404
  /\ namespace_get "SeverError" = None
  /\ lookup "SeverError" type_decls = None
  /\ namespace_get "ServerError" = None
  /\ namespace_get "NETWORK_AUTHENTICATION_REQUIRED" = Some 511.
Proof. repeat split; vm_compute; reflexivity. Qed.

(** X3. Declarations are well scoped. Whatever declaration of a union one
    picks in the file, its own name is not declared above it and each of its
    alternatives is: there is no forward, dangling or circular reference. *)
Theorem union_alternatives_declared_above :
  forall (pre : list (string * tsType)) (x : string) (alts : list string)
         (suf : list (string * tsType)),
    type_decls = (pre ++ (x, TUnion alts) :: suf)%list ->
    ~ In x (map fst pre)
    /\ forall a, In a alts -> In a (map fst pre).
Proof.
  intros pre x alts suf Heq.
  assert (well_scoped [] type_decls = true) as Hw by (vm_compute; reflexivity).
  destruct (well_scoped_at type_decls [] Hw pre x (TUnion alts) suf Heq) as [Hx Ha].
  split.
  - intros Hin. apply Hx. now right.
  - intros a Hin. destruct (Ha alts eq_refl a Hin) as [[]|H]. exact H.
Qed.

(** At the first union of the file: [Informational] follows the four
    literal types it names. *)
Lemma union_alternatives_declared_above_witness :
  ~ In "Informational" (map fst (firstn 4 type_decls))
  /\ forall a, In a (category_alternatives Informational) ->
               In a (map fst (firstn 4 type_decls)).
Proof.
  apply (union_alternatives_declared_above
           (firstn 4 type_decls) "Informational"
           (category_alternatives Informational) (skipn 5 type_decls)).
  vm_compute. reflexivity.
Defined.

(** X4. Every exported type has a meaning. The name of each declared type
    resolves, within the module's nesting depth and with any larger fuel, to
    a list of values that is not empty and holds exported codes only. *)
Theorem every_type_resolves :
  forall (x : string) (t : tsType),
    In (x, t) type_decls ->
    type_values x = Some (members x)
    /\ members x <> []
    /\ (forall m, (resolution_depth <= m)%nat ->
          inhabitants type_decls m t = Some (members x))
    /\ forall z, In z (members x) -> In z (map snd const_decls).
Proof.
  intros x t Hin.
  assert (lookup x type_decls = Some t) as Hl
    by (apply In_lookup; [exact type_names_distinct|exact Hin]).
  assert (type_values x = Some (members x)) as Hv.
  { unfold type_values. rewrite Hl.
    apply (type_values_resolved x t Hin). apply Nat.le_refl. }
  assert (forallb (fun y => negb (Nat.eqb (List.length (members y)) 0)
                            && forallb (fun z => existsb (Z.eqb z) (map snd const_decls))
                                 (members y))
            (map fst type_decls) = true) as Hb by (vm_compute; reflexivity).
  rewrite forallb_forall in Hb.
  specialize (Hb x (in_map fst _ _ Hin)). apply andb_true_iff in Hb as [Hne Hsub].
  split; [exact Hv|]. split; [|split].
  - intros E. rewrite E in Hne. discriminate.
  - exact (type_values_resolved x t Hin).
  - intros z Hz. rewrite forallb_forall in Hsub.
    apply (existsb_eqb_In Z.eqb Z.eqb_eq). now apply Hsub.
Qed.

Lemma every_type_resolves_witness :
  type_values "Success" = Some (members "Success")
  /\ members "Success" <> []
  /\ (forall m, (resolution_depth <= m)%nat ->
        inhabitants type_decls m (TUnion (category_alternatives Success))
        = Some (members "Success"))
  /\ forall z, In z (members "Success") -> In z (map snd const_decls).
Proof.
  apply (every_type_resolves "Success" (TUnion (category_alternatives Success))).
  vm_compute. tauto.
Defined.

Lemma exported_code_bounds_aux (n : string) (z : Z) :
  In (n, z) const_decls -> 100 <= z <= 511.
Proof.
  intros Hin.
  assert (forallb (fun d => (100 <=? snd d) && (snd d <=? 511)) const_decls = true)
    as Hb by (vm_compute; reflexivity).
  rewrite forallb_forall in Hb. specialize (Hb _ Hin). simpl in Hb.
  apply andb_true_iff in Hb as [Hlo Hhi]. apply Z.leb_le in Hlo, Hhi. lia.
Qed.

(** X5. Range of the codes. Every exported constant is a three-digit status
    between [CONTINUE] and [NETWORK_AUTHENTICATION_REQUIRED], the least and
    the greatest constant, hence within [100, 599]. *)
Theorem exported_code_bounds :
  forall (n : string) (z : Z),
    In (n, z) const_decls ->
    CONTINUE <= z <= NETWORK_AUTHENTICATION_REQUIRED /\ 100 <= z <= 599.
Proof.
  intros n z Hin. apply exported_code_bounds_aux in Hin.
  unfold CONTINUE, NETWORK_AUTHENTICATION_REQUIRED. lia.
Qed.

Lemma exported_code_bounds_witness :
  CONTINUE <= 226 <= NETWORK_AUTHENTICATION_REQUIRED /\ 100 <= 226 <= 599.
Proof.
  apply (exported_code_bounds "IM_USED" 226). vm_compute. tauto.
Defined.

Lemma zrange_In (lo : Z) (n : nat) (z : Z) :
  lo <= z < lo + Z.of_nat n -> In z (zrange lo n).
Proof.
  intros Hz. unfold zrange. apply in_map_iff.
  exists (Z.to_nat (z - lo)). split; [lia|].
  apply in_seq. lia.
Qed.

Lemma in_status_ranges_bounds (z : Z) :
  in_status_ranges z = true -> 100 <= z < 100 + Z.of_nat 412.
Proof.
  unfold in_status_ranges.
  rewrite !orb_true_iff, !andb_true_iff, !Z.leb_le, !Z.eqb_eq. lia.
Qed.

Lemma has_type_In (z : Z) (x : string) :
  has_type z x = true <-> In z (members x).
Proof. apply existsb_eqb_In. exact Z.eqb_eq. Qed.

(** X6. Membership in [HTTPStatus] in closed form. A number is a value of
    [HTTPStatus] exactly when it lies in one of the runs 100-103, 200-208,
    300-308, 400-418, 421-426, 428-429, 500-508, 510-511 or is 226, 431 or
    451; this holds of every integer, negative and large ones included. *)
Theorem HTTPStatus_membership_by_ranges :
  forall z : Z, has_type z "HTTPStatus" = in_status_ranges z.
Proof.
  intros z.
  assert (forallb (fun y => Bool.eqb (has_type y "HTTPStatus") (in_status_ranges y))
            (zrange 100 412) = true) as Hb by (vm_compute; reflexivity).
  rewrite forallb_forall in Hb.
  destruct (Z_le_gt_dec 100 z) as [Hlo|Hlo];
    [destruct (Z_lt_ge_dec z (100 + Z.of_nat 412)) as [Hhi|Hhi]|].
  - apply eqb_prop, Hb, zrange_In. lia.
  - destruct (in_status_ranges z) eqn:Er;
      [apply in_status_ranges_bounds in Er; lia|].
    destruct (has_type z "HTTPStatus") eqn:Et; [|reflexivity].
    apply has_type_In in Et. change (members "HTTPStatus") with HTTPStatus_members in Et.
    rewrite HTTPStatus_members_are_codes in Et. apply in_map_iff in Et as [[n y] [Hy Hin]].
    simpl in Hy. subst y. apply exported_code_bounds_aux in Hin. lia.
  - destruct (in_status_ranges z) eqn:Er;
      [apply in_status_ranges_bounds in Er; lia|].
    destruct (has_type z "HTTPStatus") eqn:Et; [|reflexivity].
    apply has_type_In in Et. change (members "HTTPStatus") with HTTPStatus_members in Et.
    rewrite HTTPStatus_members_are_codes in Et. apply in_map_iff in Et as [[n y] [Hy Hin]].
    simpl in Hy. subst y. apply exported_code_bounds_aux in Hin. lia.
Qed.

(** X7. The category unions partition the constants by name. Read in the
    order [HTTPStatus] lists them, the five unions name the constants in
    declaration order, each once and nothing else; so every constant is named
    by exactly one category, and [HTTPStatus] is the union of the five. *)
Theorem unions_partition_constant_names :
  flat_map category_alternatives all_categories = map fst const_decls
  /\ lookup "HTTPStatus" type_decls = Some (TUnion (map category_type all_categories))
  /\ forall (n : string) (z : Z),
       In (n, z) const_decls ->
       exists c, In n (category_alternatives c)
                 /\ forall d, In n (category_alternatives d) -> d = c.
Proof.
  split; [vm_compute; reflexivity|]. split; [vm_compute; reflexivity|].
  intros n z Hin.
  assert (forallb (fun n =>
            match category_of_name n with
            | Some c =>
                existsb (String.eqb n) (category_alternatives c)
                && forallb (fun d =>
                     implb (existsb (String.eqb n) (category_alternatives d))
                           (Category_eqb d c)) all_categories
            | None => false
            end) (map fst const_decls) = true) as Hb by (vm_compute; reflexivity).
  rewrite forallb_forall in Hb. specialize (Hb n (in_map fst _ _ Hin)).
  destruct (category_of_name n) as [c|]; [|discriminate].
  apply andb_true_iff in Hb as [Hc Hall]. exists c. split.
  - now apply existsb_string_In.
  - intros d Hd. rewrite forallb_forall in Hall.
    assert (In d all_categories) as Hdin by (destruct d; simpl; tauto).
    specialize (Hall d Hdin). apply existsb_string_In in Hd. rewrite Hd in Hall.
    now apply Category_eqb_eq.
Qed.

Lemma unions_partition_constant_names_witness :
  exists c, In "IM_A_TEAPOT" (category_alternatives c)
            /\ forall d, In "IM_A_TEAPOT" (category_alternatives d) -> d = c.
Proof.
  apply (proj2 (proj2 unions_partition_constant_names) "IM_A_TEAPOT" 418).
  vm_compute. tauto.
Defined.

(** The spelling test accepts and rejects as intended. *)
Lemma upper_snake_examples :
  upper_snake "IM_A_TEAPOT" = true
  /\ upper_snake "Not_Found" = false
  /\ upper_snake "NOT__FOUND" = false
  /\ upper_snake "_NOT_FOUND" = false
  /\ upper_snake "NOT_FOUND_" = false
  /\ upper_snake "HTTP_404" = false
  /\ upper_snake "" = false.
Proof. repeat split; reflexivity. Qed.

(** X8. Spelling of the names. Every constant's name is written in capital
    letters, in words joined by single underscores, with no digit or other
    character; the names of the union types are not, so a constant and a
    union cannot be confused by spelling. *)
Theorem constant_names_upper_snake :
  forall (n : string) (z : Z),
    In (n, z) const_decls ->
    upper_snake n = true
    /\ forall alts, ~ In (n, TUnion alts) type_decls.
Proof.
  intros n z Hin.
  assert (forallb upper_snake (map fst const_decls) = true) as Hb
    by (vm_compute; reflexivity).
  rewrite forallb_forall in Hb. specialize (Hb n (in_map fst _ _ Hin)).
  split; [exact Hb|]. intros alts Hu.
  assert (forallb (fun d => match snd d with
                            | TUnion _ => negb (upper_snake (fst d))
                            | TLiteral _ => true
                            end) type_decls = true) as Ht
    by (vm_compute; reflexivity).
  rewrite forallb_forall in Ht. specialize (Ht _ Hu). simpl in Ht.
  rewrite Hb in Ht. discriminate.
Qed.

Lemma constant_names_upper_snake_witness :
  upper_snake "NON_AUTHORITATIVE_INFORMATION" = true
  /\ forall alts, ~ In ("NON_AUTHORITATIVE_INFORMATION", TUnion alts) type_decls.
Proof.
  apply (constant_names_upper_snake "NON_AUTHORITATIVE_INFORMATION" 203).
  vm_compute. tauto.
Defined.
